(** * The mojom JavaScript bindings generator

    A shallow embedding of
    [mojo/public/tools/bindings/generators/mojom_js_generator.py]
    and the properties of its filters: the codec resolver [CodecType], the
    snippet emitters, the default value resolver, the payload sizer, the
    constant translator and the import aliasing of the [Generator] class.

    Python values are modelled by the inductive types below, exceptions by
    the [result] monad, and the dictionaries that the generator mutates in
    place (the imports of a module) by a store of dictionaries addressed by
    location, so that two references to one dictionary see the same
    [unique_name]. *)

From Stdlib Require Import ZArith Lia Ascii String.
From Equations Require Import Equations.
From stdpp Require Import gmap strings list pretty.

Local Open Scope string_scope.
Local Open Scope list_scope.

(** ** Exceptions *)

(** The exceptions the generator can run into.  [Exception] is the one it
    raises itself; the others come from the interpreter. *)
Inductive exn : Type :=
| Exception (message : string)
| TypeError
| KeyError (key : string)
| IndexError.

Inductive result (A : Type) : Type :=
| Ok (a : A)
| Raise (e : exn).
Arguments Ok {A} a.
Arguments Raise {A} e.

#[export] Instance result_ret : MRet result := @Ok.
#[export] Instance result_bind : MBind result :=
  λ A B f r, match r with Ok a => f a | Raise e => Raise e end.

(** [raises r]: the call ended in an exception. *)
Definition raises {A} (r : result A) : bool :=
  match r with Ok _ => false | Raise _ => true end.

(** ** Kinds *)

(** The kinds listed in [mojom.PRIMITIVES]; each is a module-level singleton
    of [mojom.generate.module], the keys of the two tables of the generator. *)
Inductive primitive : Type :=
| BOOL | INT8 | UINT8 | INT16 | UINT16 | INT32 | UINT32 | FLOAT
| HANDLE | DCPIPE | DPPIPE | MSGPIPE | SHAREDBUFFER
| INT64 | UINT64 | DOUBLE | STRING.

(** What can stand where the generator expects a kind.  The first five
    constructors are the kinds it recognises ([kind in mojom.PRIMITIVES] and
    the four [isinstance] tests).  The others are what Python lets through
    as well: a [str] (the generator itself calls [CodecType(kind.name)]),
    [None], and any other object, which the generator can do nothing with
    but format with [%s] and which is therefore identified with the text
    [str()] gives for it.  Tuples are left out: [%] takes a tuple on its
    right for an argument list. *)
Inductive kindval : Type :=
| Primitive (p : primitive)
| Struct (name : string)
| Array (kind : kindval)
| Interface (name : string)
| Enum (name : string)
| PyStr (s : string)
| PyNone
| PyObject (text : string).

(** The kinds of the data model: one of the five recognised variants. *)
Definition recognized (kind : kindval) : bool :=
  match kind with
  | Primitive _ | Struct _ | Array _ | Interface _ | Enum _ => true
  | PyStr _ | PyNone | PyObject _ => false
  end.

(** [str(v)], as the [%s] conversion applies it.  A kind object has no
    [__str__] of its own and prints as its class and address; the address is
    left out here, and [CodecType_never_a_kind_object] below shows that no
    filter ever formats such an object. *)
Definition str (v : kindval) : string :=
  match v with
  | PyStr s => s
  | PyNone => "None"
  | PyObject text => text
  | Primitive _ => "<mojom.generate.module.Kind object>"
  | Struct _ => "<mojom.generate.module.Struct object>"
  | Array _ => "<mojom.generate.module.Array object>"
  | Interface _ => "<mojom.generate.module.Interface object>"
  | Enum _ => "<mojom.generate.module.Enum object>"
  end.

(** [fmt % arg] for a format with one [%s]: the text of [arg] replaces the
    first [%s] of [fmt]. *)
Fixpoint percent (fmt : string) (arg : string) : string :=
  match fmt with
  | String "%"%char (String "s"%char rest) => arg +:+ rest
  | String c rest => String c (percent rest arg)
  | EmptyString => EmptyString
  end.

(** ** The codec resolver *)

Definition _kind_to_codec_type (kind : primitive) : string :=
  match kind with
  | BOOL => "codec.Uint8"
  | INT8 => "codec.Int8"
  | UINT8 => "codec.Uint8"
  | INT16 => "codec.Int16"
  | UINT16 => "codec.Uint16"
  | INT32 => "codec.Int32"
  | UINT32 => "codec.Uint32"
  | FLOAT => "codec.Float"
  | HANDLE => "codec.Handle"
  | DCPIPE => "codec.Handle"
  | DPPIPE => "codec.Handle"
  | MSGPIPE => "codec.Handle"
  | SHAREDBUFFER => "codec.Handle"
  | INT64 => "codec.Int64"
  | UINT64 => "codec.Uint64"
  | DOUBLE => "codec.Double"
  | STRING => "codec.String"
  end.

(** The recursive calls of the filters go to an element kind, to a name or
    to a primitive: each time to a value of smaller [depth]. *)
Fixpoint depth (kind : kindval) : nat :=
  match kind with
  | Array k => S (depth k)
  | Struct _ | Interface _ | Enum _ => 1
  | Primitive _ | PyStr _ | PyNone | PyObject _ => 0
  end.

Equations? CodecType (kind : kindval) : kindval by wf (depth kind) lt :=
  CodecType (Primitive p) := PyStr (_kind_to_codec_type p);
  CodecType (Struct name) :=
    PyStr (percent "new codec.PointerTo(%s)" (str (CodecType (PyStr name))));
  CodecType (Array k) :=
    PyStr (percent "new codec.ArrayOf(%s)" (str (CodecType k)));
  CodecType (Interface _) := CodecType (Primitive MSGPIPE);
  CodecType (Enum _) := PyStr (_kind_to_codec_type INT32);
  CodecType kind := kind.
Proof. all: simpl; lia. Qed.

(** ** The snippet emitters *)

Equations? JavaScriptDecodeSnippet (kind : kindval) : kindval
  by wf (depth kind) lt :=
  JavaScriptDecodeSnippet (Primitive p) :=
    PyStr (percent "decodeStruct(%s)" (str (CodecType (Primitive p))));
  JavaScriptDecodeSnippet (Struct name) :=
    PyStr (percent "decodeStructPointer(%s)" (str (CodecType (PyStr name))));
  JavaScriptDecodeSnippet (Array k) :=
    PyStr (percent "decodeArrayPointer(%s)" (str (CodecType k)));
  JavaScriptDecodeSnippet (Interface _) :=
    JavaScriptDecodeSnippet (Primitive MSGPIPE);
  JavaScriptDecodeSnippet (Enum _) :=
    JavaScriptDecodeSnippet (Primitive INT32);
  JavaScriptDecodeSnippet _ := PyNone.
Proof. all: simpl; lia. Qed.

Equations? JavaScriptEncodeSnippet (kind : kindval) : kindval
  by wf (depth kind) lt :=
  JavaScriptEncodeSnippet (Primitive p) :=
    PyStr (percent "encodeStruct(%s, " (str (CodecType (Primitive p))));
  JavaScriptEncodeSnippet (Struct name) :=
    PyStr (percent "encodeStructPointer(%s, " (str (CodecType (PyStr name))));
  JavaScriptEncodeSnippet (Array k) :=
    PyStr (percent "encodeArrayPointer(%s, " (str (CodecType k)));
  JavaScriptEncodeSnippet (Interface _) :=
    JavaScriptEncodeSnippet (Primitive MSGPIPE);
  JavaScriptEncodeSnippet (Enum _) :=
    JavaScriptEncodeSnippet (Primitive INT32);
  JavaScriptEncodeSnippet _ := PyNone.
Proof. all: simpl; lia. Qed.

(** ** Fields and their default values *)

(** The owner of an enum (a struct or an interface), of which the generator
    reads the name only. *)
Module Kind.
Record t : Type := { name : string }.
End Kind.

(** A reference to a dictionary in the store. *)
Abbreviation loc := positive.

(** [mojom.Constant]: a reference to an enum member.  [name] is the pair
    [[enum.name, field.name]]; [parent_kind] is [None] or the owner of the
    enum; [imported_from] is [None] or the dictionary of the import the
    constant comes from, the very object listed in [module.imports]. *)
Module Constant.
Record t : Type := {
  name : string * string;
  parent_kind : option Kind.t;
  imported_from : option loc;
}.
End Constant.

#[local] Set Warnings "-register-all".

(** Values other than kinds: what a field can hold for a default, and the
    tokens and wrappers of expressions. *)
Inductive pyval : Type :=
| VNone
| VBool (b : bool)
| VInt (n : Z)
| VStr (s : string)
| VTuple (items : list pyval)
| VList (items : list pyval)
| VConstant (c : Constant.t).

(** Truth value testing, as [if v:] does it. *)
Definition truthy (v : pyval) : bool :=
  match v with
  | VNone => false
  | VBool b => b
  | VInt n => negb (n =? 0)%Z
  | VStr s => negb (String.eqb s EmptyString)
  | VTuple items | VList items => negb (Nat.eqb (length items) 0)
  | VConstant _ => true
  end.

Module Field.
Record t : Type := { kind : kindval; default : pyval }.
End Field.

Definition dquote : ascii := "034"%char.

Definition _kind_to_javascript_default_value (kind : primitive) : string :=
  match kind with
  | BOOL => "false"
  | INT8 => "0"
  | UINT8 => "0"
  | INT16 => "0"
  | UINT16 => "0"
  | INT32 => "0"
  | UINT32 => "0"
  | FLOAT => "0"
  | HANDLE => "core.kInvalidHandle"
  | DCPIPE => "core.kInvalidHandle"
  | DPPIPE => "core.kInvalidHandle"
  | MSGPIPE => "core.kInvalidHandle"
  | SHAREDBUFFER => "core.kInvalidHandle"
  | INT64 => "0"
  | UINT64 => "0"
  | DOUBLE => "0"
  | STRING => String dquote (String dquote EmptyString)
  end.

(** A call that runs off the end of the function returns [None]. *)
Definition JavaScriptDefaultValue (field : Field.t) : result kindval :=
  if truthy (Field.default field) then
    Raise (Exception "Default values should've been handled in jinja.")
  else
    match Field.kind field with
    | Primitive p => Ok (PyStr (_kind_to_javascript_default_value p))
    | Struct _ => Ok (PyStr "null")
    | Array _ => Ok (PyStr "[]")
    | Interface _ => Ok (PyStr (_kind_to_javascript_default_value MSGPIPE))
    | Enum _ => Ok (PyStr "0")
    | PyStr _ | PyNone | PyObject _ => Ok PyNone
    end.

(** ** The payload sizer *)

Module PackedField.
Record t : Type := { offset : Z; size : Z }.
End PackedField.

Module PackedStruct.
Record t : Type := { packed_fields : list PackedField.t }.
End PackedStruct.

(** Modelled from the spec: [pack.GetPad] is defined in
    [mojom.generate.pack], not in this file.  Section 4.2 gives the padding
    to the alignment unit 8 as [(8 - raw mod 8) mod 8]; Python's [%] with a
    positive divisor is [Z.modulo]. *)
Definition GetPad (offset alignment : Z) : Z :=
  ((alignment - (offset mod alignment)) mod alignment)%Z.

Definition JavaScriptPayloadSize (packed : PackedStruct.t) : Z :=
  let packed_fields := PackedStruct.packed_fields packed in
  match last packed_fields with
  | None => 0
  | Some last_field =>
      let offset :=
        (PackedField.offset last_field + PackedField.size last_field)%Z in
      let pad := GetPad offset 8 in
      (offset + pad)%Z
  end.

(** ** The store and the module *)

(** An import is a dictionary with string keys; the generator adds the key
    [unique_name].  The dictionaries live in a store: [module.imports] and
    the [imported_from] of a constant hold references into it. *)
Abbreviation store := (gmap loc (gmap string string)).

(** [d[key] = v] on the dictionary at [l]. *)
Definition setitem (l : loc) (key v : string) (h : store) : store :=
  alter (<[key := v]>) l h.

(** [d[key]] on the dictionary at [l]. *)
Definition getitem (l : loc) (key : string) (h : store) : result string :=
  match h !! l ≫= (.!! key) with
  | Some v => Ok v
  | None => Raise (KeyError key)
  end.

(** Truth value of the dictionary at [l]: true when it is not empty. *)
Definition dict_truthy (l : loc) (h : store) : bool :=
  match h !! l with
  | Some d => negb (bool_decide (d = ∅))
  | None => false
  end.

(** [mojom.Module], with the attributes the generator reads.  The kinds,
    enums, structs and interfaces are kind objects. *)
Module MojomModule.
Record t : Type := {
  name : string;
  imports : list loc;
  kinds : gmap string kindval;
  enums : list kindval;
  structs : list kindval;
  interfaces : list kindval;
}.
End MojomModule.

(** ** The constant and expression translator *)

(** Enum constants are constructed like
    [NamespaceUid.Struct_Enum.FIELD_NAME].  The argument [module] is not
    used. *)
Definition TranslateConstants (h : store) (token : pyval)
    (module : MojomModule.t) : result pyval :=
  match token with
  | VConstant token =>
      let name := [] in
      name ← match Constant.imported_from token with
             | Some imported_from =>
                 if dict_truthy imported_from h then
                   unique_name ← getitem imported_from "unique_name" h;
                   Ok (name ++ [unique_name])
                 else Ok name
             | None => Ok name
             end;
      let name :=
        match Constant.parent_kind token with
        | Some parent_kind =>
            name ++ [Kind.name parent_kind +:+ "_" +:+ (Constant.name token).1]
        | None => name ++ [(Constant.name token).1]
        end in
      let name := name ++ [(Constant.name token).2] in
      Ok (VStr (String.concat "." name))
  | _ => Ok token
  end.

(** [value[0]]. *)
Definition getitem0 (value : pyval) : result pyval :=
  match value with
  | VTuple (x :: _) | VList (x :: _) => Ok x
  | VTuple [] | VList [] => Raise IndexError
  | VStr (String c _) => Ok (VStr (String c EmptyString))
  | VStr EmptyString => Raise IndexError
  | VNone | VBool _ | VInt _ | VConstant _ => Raise TypeError
  end.

(** [v != s] for a string [s]. *)
Definition ne_str (v : pyval) (s : string) : bool :=
  match v with
  | VStr s' => negb (String.eqb s' s)
  | _ => true
  end.

(** [s + v] for a string [s]: concatenation with a [str], a [TypeError]
    with anything else. *)
Definition str_add (s : string) (v : pyval) : result string :=
  match v with
  | VStr s' => Ok (s +:+ s')
  | _ => Raise TypeError
  end.

(** [sep.join(items)]: every item must be a [str]. *)
Definition str_join (sep : string) (items : list pyval) : result string :=
  parts ← mapM (λ item, match item with
                        | VStr s => Ok s
                        | _ => Raise TypeError
                        end) items;
  Ok (String.concat sep parts).

(** Modelled from the spec: [generator.ExpressionMapper] is defined in
    [mojom.generate.generator], not in this file.  Section 4.5 describes a
    token-rewriting pass over an already-tokenized expression: the mapper
    is applied to every token of the wrapper [("EXPRESSION", [tokens])], in
    order, and the results are returned as a list.  The spec says nothing of
    a value of another shape; the model raises a [TypeError] for it. *)
Definition ExpressionMapper (expression : pyval)
    (mapper : pyval → result pyval) : result (list pyval) :=
  match expression with
  | VTuple [VStr "EXPRESSION"; VList tokens] => mapM mapper tokens
  | _ => Raise TypeError
  end.

Definition ExpressionToText (h : store) (value : pyval)
    (module : MojomModule.t) : result string :=
  tag ← getitem0 value;
  if ne_str tag "EXPRESSION" then
    message ← str_add "Expected EXPRESSION, got" value;
    Raise (Exception message)
  else
    tokens ← ExpressionMapper value (λ token, TranslateConstants h token module);
    str_join "" tokens.

(** ** The generator class *)

(** What the template context holds under its keys. *)
Inductive context_value : Type :=
| CtxImports (imports : list loc)
| CtxKindDict (kinds : gmap string kindval)
| CtxKindList (kinds : list kindval)
| CtxModule (module : MojomModule.t).

Abbreviation context := (gmap string context_value).

(** [GetImports]: the loop over [module.imports], with its counter. *)
Fixpoint GetImports_loop (counter : Z) (imports : list loc) (h : store) : store :=
  match imports with
  | [] => h
  | each :: rest =>
      let h := setitem each "unique_name" ("import" +:+ pretty counter) h in
      GetImports_loop (counter + 1) rest h
  end.

Definition GetImports (module : MojomModule.t) (h : store) : store * list loc :=
  let counter := 1%Z in
  let h := GetImports_loop counter (MojomModule.imports module) h in
  (h, MojomModule.imports module).

(** The alias an import carries in the store, if any. *)
Definition unique_name_of (h : store) (l : loc) : option string :=
  h !! l ≫= (.!! "unique_name").

Section Generator.

(** The methods [GetStructs] and [GetStructsFromMethods] are inherited from
    [generator.Generator], which also provides [Write]; the decorator
    [UseJinja] renders a template with the context the decorated method
    returns.  None of them is defined in this file: the first two and the
    rendering are parameters of the section. *)
Variable GetStructs : MojomModule.t → list kindval.
Variable GetStructsFromMethods : MojomModule.t → list kindval.
Variable render : string → context → store → result string.

(** The body of [GenerateJsModule], before decoration. *)
Definition GenerateJsModule_context (module : MojomModule.t) (h : store)
    : store * context :=
  let '(h, imports) := GetImports module h in
  (h,
   <["imports" := CtxImports imports]>
   (<["kinds" := CtxKindDict (MojomModule.kinds module)]>
   (<["enums" := CtxKindList (MojomModule.enums module)]>
   (<["module" := CtxModule module]>
   (<["structs" := CtxKindList (GetStructs module ++ GetStructsFromMethods module)]>
   (<["interfaces" := CtxKindList (MojomModule.interfaces module)]> ∅)))))).

(** [GenerateJsModule] as decorated by [UseJinja]. *)
Definition GenerateJsModule (module : MojomModule.t) (h : store)
    : result (store * string) :=
  let '(h, parameters) := GenerateJsModule_context module h in
  text ← render "js_templates/module.js.tmpl" parameters h;
  Ok (h, text).

(** Modelled from the spec: [Write] is a method of [generator.Generator].
    Section 4.6 has the assembler write one artifact; the model records the
    artifact, its name and its contents, after those written before. *)
Definition Write (contents filename : string) (written : list (string * string))
    : list (string * string) :=
  written ++ [(filename, contents)].

Definition GenerateFiles (module : MojomModule.t) (h : store)
    (written : list (string * string))
    : result (store * list (string * string)) :=
  '(h, contents) ← GenerateJsModule module h;
  Ok (h, Write contents (percent "%s.js" (MojomModule.name module)) written).

End Generator.

(** ** The type filter *)

(** A struct, enum or interface as [JavascriptType] reads it: its [name],
    and [imported_from], which is [None] or the dictionary of the import
    that declares it, the very object listed in [module.imports]. *)
Module UserKind.
Record t : Type := { name : string; imported_from : option loc }.
End UserKind.

Definition JavascriptType (h : store) (kind : UserKind.t) : result string :=
  match UserKind.imported_from kind with
  | Some imported_from =>
      if dict_truthy imported_from h then
        unique_name ← getitem imported_from "unique_name" h;
        Ok (unique_name +:+ "." +:+ UserKind.name kind)
      else Ok (UserKind.name kind)
  | None => Ok (UserKind.name kind)
  end.

(** ** Classes of kinds, in the words of the spec *)

(** The numeric primitive tags. *)
Definition numeric (p : primitive) : bool :=
  match p with
  | INT8 | UINT8 | INT16 | UINT16 | INT32 | UINT32 | INT64 | UINT64
  | FLOAT | DOUBLE => true
  | _ => false
  end.

(** The handle family. *)
Definition handle_family (p : primitive) : bool :=
  match p with
  | HANDLE | DCPIPE | DPPIPE | MSGPIPE | SHAREDBUFFER => true
  | _ => false
  end.

(** The spec's [hasExplicitDefault]: the field stores a default, that is
    something other than [None]. *)
Definition hasExplicitDefault (field : Field.t) : bool :=
  match Field.default field with
  | VNone => false
  | _ => true
  end.

(** ** Sample data *)

(** A store with three import dictionaries, the last of them empty, and a
    module that imports them in this order. *)
Definition sample_store : store :=
  {[ 1%positive := {[ "module_name" := "geometry.mojom" ]};
     2%positive := {[ "module_name" := "color.mojom" ]};
     3%positive := ∅ ]}.

Definition sample_module : MojomModule.t :=
  {| MojomModule.name := "sample";
     MojomModule.imports := [1; 2; 3]%positive;
     MojomModule.kinds := {[ "x:Point" := Struct "Point" ]};
     MojomModule.enums := [Enum "Color"];
     MojomModule.structs := [Struct "Point"];
     MojomModule.interfaces := [Interface "Painter"] |}.

(** A reference to the member [RED] of the enum [Color] of the struct
    [Shape], which comes from the second import. *)
Definition sample_constant : Constant.t :=
  {| Constant.name := ("Color", "RED");
     Constant.parent_kind := Some {| Kind.name := "Shape" |};
     Constant.imported_from := Some 2%positive |}.

(** The struct [Shape] of the second import. *)
Definition sample_kind : UserKind.t :=
  {| UserKind.name := "Shape"; UserKind.imported_from := Some 2%positive |}.

(** A module whose import list holds the first dictionary twice. *)
Definition sample_module_shared : MojomModule.t :=
  {| MojomModule.name := "shared";
     MojomModule.imports := [1; 2; 1]%positive;
     MojomModule.kinds := ∅;
     MojomModule.enums := [];
     MojomModule.structs := [];
     MojomModule.interfaces := [] |}.

(** * Properties *)

(** ** Codec resolver and snippet emitters *)

Ltac simp_filters :=
  repeat (simp CodecType JavaScriptDecodeSnippet JavaScriptEncodeSnippet; cbn).

(** On a recognised kind the resolver returns a string; on anything else it
    returns its argument.  Either way the result is not a kind object, so
    the last five cases of [str] are never used by the filters. *)
Lemma CodecType_never_a_kind_object (kind : kindval) :
  recognized (CodecType kind) = false.
Proof. destruct kind; simp_filters; reflexivity. Qed.

Lemma CodecType_total (kind : kindval) :
  recognized kind = true → ∃ descriptor, CodecType kind = PyStr descriptor.
Proof. destruct kind; intros Hk; try discriminate; simp_filters; eauto. Qed.

Lemma CodecType_struct (name : string) :
  CodecType (Struct name) = PyStr ("new codec.PointerTo(" +:+ name +:+ ")").
Proof. simp_filters. reflexivity. Qed.

Lemma CodecType_array (kind : kindval) :
  CodecType (Array kind)
  = PyStr ("new codec.ArrayOf(" +:+ str (CodecType kind) +:+ ")").
Proof. simp_filters. reflexivity. Qed.

(** C1: structural aliasing.  For every name [x] the resolver gives
    [Interface x] the descriptor of the message pipe primitive and [Enum x]
    the descriptor of the int32 primitive, and the decode and encode
    snippets obey the same aliasing; the snippet of an interface or an enum
    is moreover the scalar snippet around the descriptor that the resolver
    gives for that same interface or enum, so the two never diverge. *)
Theorem interface_enum_aliasing (x : string) :
  CodecType (Interface x) = CodecType (Primitive MSGPIPE)
  ∧ CodecType (Enum x) = CodecType (Primitive INT32)
  ∧ JavaScriptDecodeSnippet (Interface x) = JavaScriptDecodeSnippet (Primitive MSGPIPE)
  ∧ JavaScriptDecodeSnippet (Enum x) = JavaScriptDecodeSnippet (Primitive INT32)
  ∧ JavaScriptEncodeSnippet (Interface x) = JavaScriptEncodeSnippet (Primitive MSGPIPE)
  ∧ JavaScriptEncodeSnippet (Enum x) = JavaScriptEncodeSnippet (Primitive INT32)
  ∧ JavaScriptDecodeSnippet (Interface x)
    = PyStr (percent "decodeStruct(%s)" (str (CodecType (Interface x))))
  ∧ JavaScriptDecodeSnippet (Enum x)
    = PyStr (percent "decodeStruct(%s)" (str (CodecType (Enum x))))
  ∧ JavaScriptEncodeSnippet (Interface x)
    = PyStr (percent "encodeStruct(%s, " (str (CodecType (Interface x))))
  ∧ JavaScriptEncodeSnippet (Enum x)
    = PyStr (percent "encodeStruct(%s, " (str (CodecType (Enum x)))).
Proof. split_and!; simp_filters; reflexivity. Qed.

(** C6, counterexample: a bare name is not one of the recognised kinds, and
    the resolver returns it as it is, without raising; the decode snippet
    for it is [None]. *)
Lemma unrecognized_kind_not_rejected :
  recognized (PyStr "Point") = false
  ∧ CodecType (PyStr "Point") = PyStr "Point"
  ∧ JavaScriptDecodeSnippet (PyStr "Point") = PyNone
  ∧ raises (JavaScriptDefaultValue
              {| Field.kind := PyStr "Point"; Field.default := VNone |}) = false.
Proof. split_and!; reflexivity. Qed.

(** C6, amended: for a value that is not one of the recognised kinds no
    resolver raises.  The codec resolver returns the value itself; both
    snippet emitters, and the default value resolver on a field whose
    default is not truthy, return [None]. *)
Theorem unrecognized_kind_falls_through (kind : kindval) :
  recognized kind = false →
  CodecType kind = kind
  ∧ JavaScriptDecodeSnippet kind = PyNone
  ∧ JavaScriptEncodeSnippet kind = PyNone
  ∧ (∀ default, truthy default = false →
       JavaScriptDefaultValue {| Field.kind := kind; Field.default := default |}
       = Ok PyNone).
Proof.
  intros Hkind.
  destruct kind; try discriminate Hkind; simp_filters;
    (split_and!; [reflexivity .. | ]);
    intros default Hfalsy; unfold JavaScriptDefaultValue; cbn;
    rewrite Hfalsy; reflexivity.
Qed.

Lemma unrecognized_kind_falls_through_witness :
  recognized PyNone = false
  ∧ CodecType PyNone = PyNone
  ∧ JavaScriptDecodeSnippet PyNone = PyNone
  ∧ JavaScriptEncodeSnippet PyNone = PyNone
  ∧ (∀ default, truthy default = false →
       JavaScriptDefaultValue {| Field.kind := PyNone; Field.default := default |}
       = Ok PyNone).
Proof.
  split; [reflexivity | apply (unrecognized_kind_falls_through PyNone); reflexivity].
Defined.

(** ** Payload sizer *)

Lemma GetPad_8 (raw : Z) :
  (0 ≤ GetPad raw 8 < 8 ∧ (raw + GetPad raw 8) mod 8 = 0)%Z.
Proof.
  unfold GetPad. split.
  - apply Z.mod_pos_bound. lia.
  - rewrite Zplus_mod_idemp_r.
    replace (raw + (8 - raw mod 8))%Z with (raw - raw mod 8 + 1 * 8)%Z by lia.
    rewrite Z_mod_plus_full, Zminus_mod_idemp_r, Z.sub_diag. reflexivity.
Qed.

(** C2: the payload size of an empty list of packed fields is 0; that of a
    list ending in [last_field] is [raw = offset + size] of that field plus
    [(8 - raw mod 8) mod 8], which is [raw] rounded up to the next multiple
    of 8.  One field at offset 0 of size 1 gives 8, and any list whose last
    field has offset 9 and size 4 gives 16. *)
Theorem JavaScriptPayloadSize_rounds_up :
  JavaScriptPayloadSize {| PackedStruct.packed_fields := [] |} = 0%Z
  ∧ (∀ fields last_field,
       JavaScriptPayloadSize
         {| PackedStruct.packed_fields := fields ++ [last_field] |}
       = (PackedField.offset last_field + PackedField.size last_field
          + (8 - (PackedField.offset last_field + PackedField.size last_field)
                   mod 8) mod 8)%Z
       ∧ (JavaScriptPayloadSize
            {| PackedStruct.packed_fields := fields ++ [last_field] |}
          mod 8 = 0)%Z
       ∧ (PackedField.offset last_field + PackedField.size last_field
          ≤ JavaScriptPayloadSize
              {| PackedStruct.packed_fields := fields ++ [last_field] |}
          < PackedField.offset last_field + PackedField.size last_field + 8)%Z)
  ∧ JavaScriptPayloadSize
      {| PackedStruct.packed_fields :=
           [{| PackedField.offset := 0; PackedField.size := 1 |}] |} = 8%Z
  ∧ (∀ fields,
       JavaScriptPayloadSize
         {| PackedStruct.packed_fields :=
              fields ++ [{| PackedField.offset := 9; PackedField.size := 4 |}] |}
       = 16%Z).
Proof.
  split_and!; [reflexivity | | reflexivity | ].
  - intros fields last_field. unfold JavaScriptPayloadSize. cbn.
    rewrite last_snoc.
    pose proof (GetPad_8 (PackedField.offset last_field
                          + PackedField.size last_field)) as [Hpad Hmod].
    split_and!; [reflexivity | exact Hmod | lia | lia].
  - intros fields. unfold JavaScriptPayloadSize. cbn.
    rewrite last_snoc. reflexivity.
Qed.

(** ** Default value resolver *)

(** The resolver looks at the default of the field first, and at its kind
    only when the default is not truthy. *)
Lemma JavaScriptDefaultValue_truthy (field : Field.t) :
  truthy (Field.default field) = true →
  JavaScriptDefaultValue field
  = Raise (Exception "Default values should've been handled in jinja.").
Proof. intros Hd. unfold JavaScriptDefaultValue. rewrite Hd. reflexivity. Qed.

Lemma JavaScriptDefaultValue_falsy (kind : kindval) (default : pyval) :
  truthy default = false →
  JavaScriptDefaultValue {| Field.kind := kind; Field.default := default |}
  = JavaScriptDefaultValue {| Field.kind := kind; Field.default := VNone |}.
Proof. intros Hd. unfold JavaScriptDefaultValue. cbn. rewrite Hd. reflexivity. Qed.

(** Every primitive is numeric, [BOOL], [STRING] or of the handle family. *)
Lemma primitive_classes (p : primitive) :
  numeric p = true ∨ p = BOOL ∨ p = STRING ∨ handle_family p = true.
Proof. destruct p; cbn; auto. Qed.

(** C3: for a field without an explicit default the resolver returns the
    zero literal of its kind: [0] for the numeric primitives and for enums,
    [false] for bool, the empty string literal for string, [null] for
    structs, [[]] for arrays, and for interfaces and the primitives of the
    handle family the invalid handle, which is what the message pipe
    primitive gets. *)
Theorem JavaScriptDefaultValue_zero_literal (field : Field.t) :
  Field.default field = VNone →
  (∀ p, Field.kind field = Primitive p → numeric p = true →
     JavaScriptDefaultValue field = Ok (PyStr "0"))
  ∧ (∀ x, Field.kind field = Enum x →
       JavaScriptDefaultValue field = Ok (PyStr "0"))
  ∧ (Field.kind field = Primitive BOOL →
       JavaScriptDefaultValue field = Ok (PyStr "false"))
  ∧ (Field.kind field = Primitive STRING →
       JavaScriptDefaultValue field
       = Ok (PyStr (String dquote (String dquote EmptyString))))
  ∧ (∀ x, Field.kind field = Struct x →
       JavaScriptDefaultValue field = Ok (PyStr "null"))
  ∧ (∀ k, Field.kind field = Array k →
       JavaScriptDefaultValue field = Ok (PyStr "[]"))
  ∧ (∀ p, Field.kind field = Primitive p → handle_family p = true →
       JavaScriptDefaultValue field = Ok (PyStr "core.kInvalidHandle")
       ∧ JavaScriptDefaultValue field
         = JavaScriptDefaultValue
             {| Field.kind := Primitive MSGPIPE; Field.default := VNone |})
  ∧ (∀ x, Field.kind field = Interface x →
       JavaScriptDefaultValue field = Ok (PyStr "core.kInvalidHandle")
       ∧ JavaScriptDefaultValue field
         = JavaScriptDefaultValue
             {| Field.kind := Primitive MSGPIPE; Field.default := VNone |}).
Proof.
  destruct field as [kind default]. cbn. intros ->.
  unfold JavaScriptDefaultValue. cbn.
  split_and!.
  - intros p -> Hp. destruct p; try discriminate Hp; reflexivity.
  - intros x ->. reflexivity.
  - intros ->. reflexivity.
  - intros ->. reflexivity.
  - intros x ->. reflexivity.
  - intros k ->. reflexivity.
  - intros p -> Hp. destruct p; try discriminate Hp; split; reflexivity.
  - intros x ->. split; reflexivity.
Qed.

Lemma JavaScriptDefaultValue_zero_literal_witness :
  Field.default
    {| Field.kind := Primitive SHAREDBUFFER; Field.default := VNone |} = VNone
  ∧ JavaScriptDefaultValue
      {| Field.kind := Primitive SHAREDBUFFER; Field.default := VNone |}
    = Ok (PyStr "core.kInvalidHandle").
Proof.
  split; [reflexivity | ].
  destruct (JavaScriptDefaultValue_zero_literal
              {| Field.kind := Primitive SHAREDBUFFER; Field.default := VNone |}
              eq_refl) as (_ & _ & _ & _ & _ & _ & Hhandle & _).
  exact (proj1 (Hhandle SHAREDBUFFER eq_refl eq_refl)).
Defined.

(** C4, counterexample: an int32 field whose explicit default is the
    integer 0.  The default is there but it is not truthy, and the resolver
    returns the literal [0] instead of raising. *)
Lemma explicit_zero_default_not_rejected :
  hasExplicitDefault
    {| Field.kind := Primitive INT32; Field.default := VInt 0 |} = true
  ∧ JavaScriptDefaultValue
      {| Field.kind := Primitive INT32; Field.default := VInt 0 |}
    = Ok (PyStr "0").
Proof. split; reflexivity. Qed.

(** C4, amended: for every field whose stored default is truthy, whatever
    its kind, the resolver raises and returns no literal.  Every default
    that is an expression wrapper, a tuple that starts with its tag, is
    truthy. *)
Theorem JavaScriptDefaultValue_rejects_truthy_default
    (kind : kindval) (default : pyval) :
  truthy default = true →
  hasExplicitDefault {| Field.kind := kind; Field.default := default |} = true
  ∧ JavaScriptDefaultValue {| Field.kind := kind; Field.default := default |}
    = Raise (Exception "Default values should've been handled in jinja.")
  ∧ (∀ literal,
       JavaScriptDefaultValue {| Field.kind := kind; Field.default := default |}
       ≠ Ok literal).
Proof.
  intros Hd. split_and!.
  - destruct default; try reflexivity. discriminate Hd.
  - apply JavaScriptDefaultValue_truthy. exact Hd.
  - intros literal. rewrite JavaScriptDefaultValue_truthy by exact Hd.
    discriminate.
Qed.

Lemma JavaScriptDefaultValue_rejects_truthy_default_witness :
  truthy (VTuple [VStr "EXPRESSION"; VList [VStr "42"]]) = true
  ∧ JavaScriptDefaultValue
      {| Field.kind := Array (Primitive INT8);
         Field.default := VTuple [VStr "EXPRESSION"; VList [VStr "42"]] |}
    = Raise (Exception "Default values should've been handled in jinja.").
Proof.
  split; [reflexivity | ].
  apply (JavaScriptDefaultValue_rejects_truthy_default
           (Array (Primitive INT8))
           (VTuple [VStr "EXPRESSION"; VList [VStr "42"]])).
  reflexivity.
Defined.

(** C10: the resolver raises exactly when the stored default is truthy.  A
    field with a default that is not truthy, such as [0], [False] or the
    empty string, is treated as a field with no default, and gets the zero
    literal of its kind. *)
Theorem JavaScriptDefaultValue_raises_iff_truthy (field : Field.t) :
  (raises (JavaScriptDefaultValue field) = true
   ↔ truthy (Field.default field) = true)
  ∧ (truthy (Field.default field) = false →
       JavaScriptDefaultValue field
       = JavaScriptDefaultValue
           {| Field.kind := Field.kind field; Field.default := VNone |})
  ∧ JavaScriptDefaultValue
      {| Field.kind := Primitive INT32; Field.default := VInt 0 |}
    = Ok (PyStr "0")
  ∧ JavaScriptDefaultValue
      {| Field.kind := Primitive BOOL; Field.default := VBool false |}
    = Ok (PyStr "false")
  ∧ JavaScriptDefaultValue
      {| Field.kind := Primitive STRING; Field.default := VStr EmptyString |}
    = Ok (PyStr (String dquote (String dquote EmptyString))).
Proof.
  split_and!; try reflexivity.
  - split.
    + intros Hr. destruct (truthy (Field.default field)) eqn:Hd; [reflexivity | ].
      destruct field as [kind default]. cbn in Hd.
      rewrite (JavaScriptDefaultValue_falsy kind default Hd) in Hr.
      destruct kind; discriminate Hr.
    + intros Hd. rewrite JavaScriptDefaultValue_truthy by exact Hd. reflexivity.
  - destruct field as [kind default]. apply JavaScriptDefaultValue_falsy.
Qed.

Lemma JavaScriptDefaultValue_raises_iff_truthy_witness :
  truthy (VStr EmptyString) = false
  ∧ JavaScriptDefaultValue
      {| Field.kind := Struct "Point"; Field.default := VStr EmptyString |}
    = JavaScriptDefaultValue
        {| Field.kind := Struct "Point"; Field.default := VNone |}.
Proof.
  split; [reflexivity | ].
  destruct (JavaScriptDefaultValue_raises_iff_truthy
              {| Field.kind := Struct "Point"; Field.default := VStr EmptyString |})
    as (_ & Hfalsy & _).
  apply Hfalsy. reflexivity.
Defined.

(** ** Constant and expression translator *)

(** An import that carries an alias is a dictionary that is not empty, and
    reading its [unique_name] succeeds. *)
Lemma unique_name_of_Some (h : store) (l : loc) (alias : string) :
  unique_name_of h l = Some alias →
  dict_truthy l h = true ∧ getitem l "unique_name" h = Ok alias.
Proof.
  unfold unique_name_of, dict_truthy, getitem.
  destruct (h !! l) as [d | ] eqn:Hl; cbn; [ | discriminate].
  intros Hd. rewrite Hd. split; [ | reflexivity].
  apply negb_true_iff, bool_decide_eq_false. intros ->.
  rewrite lookup_empty in Hd. discriminate.
Qed.

Lemma TranslateConstants_not_imported (h : store) (module : MojomModule.t)
    (c : Constant.t) :
  Constant.imported_from c = None →
  TranslateConstants h (VConstant c) module
  = Ok (VStr (String.concat "."
                [match Constant.parent_kind c with
                 | Some parent_kind =>
                     Kind.name parent_kind +:+ "_" +:+ (Constant.name c).1
                 | None => (Constant.name c).1
                 end;
                 (Constant.name c).2])).
Proof.
  intros Himp. unfold TranslateConstants. rewrite Himp. cbn.
  destruct (Constant.parent_kind c); reflexivity.
Qed.

Lemma TranslateConstants_imported (h : store) (module : MojomModule.t)
    (c : Constant.t) (l : loc) (alias : string) :
  Constant.imported_from c = Some l →
  unique_name_of h l = Some alias →
  TranslateConstants h (VConstant c) module
  = Ok (VStr (String.concat "."
                [alias;
                 match Constant.parent_kind c with
                 | Some parent_kind =>
                     Kind.name parent_kind +:+ "_" +:+ (Constant.name c).1
                 | None => (Constant.name c).1
                 end;
                 (Constant.name c).2])).
Proof.
  intros Himp Halias. apply unique_name_of_Some in Halias as [Htrue Hget].
  unfold TranslateConstants. rewrite Himp, Htrue, Hget. cbn.
  destruct (Constant.parent_kind c); reflexivity.
Qed.

Lemma TranslateConstants_other (h : store) (module : MojomModule.t)
    (token : pyval) :
  (∀ c, token ≠ VConstant c) → TranslateConstants h token module = Ok token.
Proof. intros Hc. destruct token; try reflexivity. destruct (Hc c eq_refl). Qed.

(** C5: a constant reference is translated to the parts, joined with dots:
    the alias of the import it comes from, when it comes from one; then the
    name of the owning kind, an underscore and the first name component when
    it has an owner, else the first name component alone; then the second
    name component.  A token that is not a constant reference is returned
    as it is.  The components [("Color", "RED")] without owner and import
    give [Color.RED], and with the owner [Shape] they give
    [Shape_Color.RED]. *)
Theorem TranslateConstants_dotted_path (h : store) (module : MojomModule.t) :
  (∀ c, Constant.imported_from c = None →
     TranslateConstants h (VConstant c) module
     = Ok (VStr (String.concat "."
                   [match Constant.parent_kind c with
                    | Some parent_kind =>
                        Kind.name parent_kind +:+ "_" +:+ (Constant.name c).1
                    | None => (Constant.name c).1
                    end;
                    (Constant.name c).2])))
  ∧ (∀ c l alias,
       Constant.imported_from c = Some l →
       unique_name_of h l = Some alias →
       TranslateConstants h (VConstant c) module
       = Ok (VStr (String.concat "."
                     [alias;
                      match Constant.parent_kind c with
                      | Some parent_kind =>
                          Kind.name parent_kind +:+ "_" +:+ (Constant.name c).1
                      | None => (Constant.name c).1
                      end;
                      (Constant.name c).2])))
  ∧ (∀ token, (∀ c, token ≠ VConstant c) →
       TranslateConstants h token module = Ok token)
  ∧ TranslateConstants h
      (VConstant {| Constant.name := ("Color", "RED");
                    Constant.parent_kind := None;
                    Constant.imported_from := None |}) module
    = Ok (VStr "Color.RED")
  ∧ TranslateConstants h
      (VConstant {| Constant.name := ("Color", "RED");
                    Constant.parent_kind := Some {| Kind.name := "Shape" |};
                    Constant.imported_from := None |}) module
    = Ok (VStr "Shape_Color.RED").
Proof.
  split_and!.
  - intros c. apply TranslateConstants_not_imported.
  - intros c l alias. apply TranslateConstants_imported.
  - intros token. apply TranslateConstants_other.
  - rewrite TranslateConstants_not_imported by reflexivity. reflexivity.
  - rewrite TranslateConstants_not_imported by reflexivity. reflexivity.
Qed.

Lemma TranslateConstants_dotted_path_witness :
  unique_name_of (GetImports sample_module sample_store).1 2%positive
  = Some "import2"
  ∧ TranslateConstants (GetImports sample_module sample_store).1
      (VConstant sample_constant) sample_module
    = Ok (VStr "import2.Shape_Color.RED").
Proof.
  split; [vm_compute; reflexivity | ].
  destruct (TranslateConstants_dotted_path
              (GetImports sample_module sample_store).1 sample_module)
    as (_ & Himported & _).
  apply (Himported sample_constant 2%positive "import2");
    [reflexivity | vm_compute; reflexivity].
Defined.

(** [mapM] over the [result] monad: when every call succeeds, the results
    come back in order. *)
Lemma mapM_Ok {A B} (f : A → result B) (xs : list A) (ys : list B) :
  Forall2 (λ x y, f x = Ok y) xs ys → mapM f xs = Ok ys.
Proof.
  induction 1 as [ | x y xs ys Hxy _ IH]; cbn; [reflexivity | ].
  rewrite Hxy. cbn. rewrite IH. reflexivity.
Qed.

Lemma str_join_strings (sep : string) (texts : list string) :
  str_join sep (VStr <$> texts) = Ok (String.concat sep texts).
Proof.
  unfold str_join.
  rewrite (mapM_Ok _ (VStr <$> texts) texts); [reflexivity | ].
  induction texts; constructor; auto.
Qed.

Lemma ne_str_false (v : pyval) (s : string) :
  ne_str v s = false → v = VStr s.
Proof.
  destruct v; cbn; try discriminate.
  intros Heq%negb_false_iff%String.eqb_eq. congruence.
Qed.

Lemma ExpressionToText_wrong_tag (h : store) (module : MojomModule.t)
    (value : pyval) :
  getitem0 value ≠ Ok (VStr "EXPRESSION") →
  raises (ExpressionToText h value module) = true.
Proof.
  intros Htag. unfold ExpressionToText.
  destruct (getitem0 value) as [tag | e]; cbn; [ | reflexivity].
  destruct (ne_str tag "EXPRESSION") eqn:Hne.
  - destruct (str_add _ value); reflexivity.
  - apply ne_str_false in Hne. congruence.
Qed.

Lemma ExpressionToText_tokens (h : store) (module : MojomModule.t)
    (tokens : list pyval) (texts : list string) :
  Forall2 (λ token text, TranslateConstants h token module = Ok (VStr text))
    tokens texts →
  ExpressionToText h (VTuple [VStr "EXPRESSION"; VList tokens]) module
  = Ok (String.concat "" texts).
Proof.
  intros Htokens. unfold ExpressionToText. cbn.
  rewrite (mapM_Ok _ tokens (VStr <$> texts)).
  - cbn. apply str_join_strings.
  - induction Htokens; constructor; auto.
Qed.

(** C8: translating an expression raises whenever the outer tag of the
    value is not [EXPRESSION], and also when the value has no first item.  On
    a wrapper with that tag it succeeds as soon as every token translates
    to a string, and gives these strings joined in order: a token that is a
    string stands in the result as it is, and only a constant reference is
    replaced, by its dotted path. *)
Theorem ExpressionToText_wrapper (h : store) (module : MojomModule.t) :
  (∀ value, getitem0 value ≠ Ok (VStr "EXPRESSION") →
     raises (ExpressionToText h value module) = true)
  ∧ (∀ tokens texts,
       Forall2 (λ token text,
                  match token with
                  | VStr s => text = s
                  | VConstant _ =>
                      TranslateConstants h token module = Ok (VStr text)
                  | _ => False
                  end) tokens texts →
       ExpressionToText h (VTuple [VStr "EXPRESSION"; VList tokens]) module
       = Ok (String.concat "" texts))
  ∧ (∀ texts,
       ExpressionToText h (VTuple [VStr "EXPRESSION"; VList (VStr <$> texts)])
         module
       = Ok (String.concat "" texts)).
Proof.
  split_and!.
  - intros value. apply ExpressionToText_wrong_tag.
  - intros tokens texts Htokens. apply ExpressionToText_tokens.
    induction Htokens as [ | token text tokens texts Htoken _ IH];
      constructor; [ | exact IH].
    destruct token; try contradiction; [subst; reflexivity | exact Htoken].
  - intros texts. apply ExpressionToText_tokens.
    induction texts; constructor; auto.
Qed.

Lemma ExpressionToText_wrapper_witness :
  getitem0 (VTuple [VStr "STATEMENT"; VList [VStr "1"]])
  ≠ Ok (VStr "EXPRESSION")
  ∧ raises (ExpressionToText (GetImports sample_module sample_store).1
              (VTuple [VStr "STATEMENT"; VList [VStr "1"]]) sample_module)
    = true
  ∧ ExpressionToText (GetImports sample_module sample_store).1
      (VTuple [VStr "EXPRESSION";
               VList [VStr "1"; VStr "+"; VConstant sample_constant]])
      sample_module
    = Ok "1+import2.Shape_Color.RED".
Proof.
  destruct (ExpressionToText_wrapper
              (GetImports sample_module sample_store).1 sample_module)
    as (Hwrong & Htokens & _).
  split_and!.
  - discriminate.
  - apply Hwrong. discriminate.
  - apply (Htokens _ ["1"; "+"; "import2.Shape_Color.RED"]).
    repeat constructor.
Defined.

(** ** Import aliasing *)

Lemma unique_name_of_setitem (h : store) (l : loc) (alias : string) :
  is_Some (h !! l) →
  unique_name_of (setitem l "unique_name" alias h) l = Some alias.
Proof.
  intros [d Hd]. unfold unique_name_of, setitem.
  rewrite lookup_alter_eq, Hd. cbn. apply lookup_insert_eq.
Qed.

(** The loop writes to the dictionaries of the list only. *)
Lemma GetImports_loop_other (counter : Z) (imports : list loc) (h : store)
    (l : loc) :
  l ∉ imports → GetImports_loop counter imports h !! l = h !! l.
Proof.
  revert counter h.
  induction imports as [ | each rest IH]; intros counter h Hl; cbn;
    [reflexivity | ].
  apply not_elem_of_cons in Hl as [Hne Hrest].
  rewrite IH by exact Hrest.
  unfold setitem. apply lookup_alter_ne. congruence.
Qed.

(** When no dictionary is listed twice, the dictionary at position [i]
    ends up with the alias made from [counter + i]. *)
Lemma GetImports_loop_alias (counter : Z) (imports : list loc) (h : store)
    (i : nat) (l : loc) :
  NoDup imports →
  imports !! i = Some l →
  is_Some (h !! l) →
  unique_name_of (GetImports_loop counter imports h) l
  = Some ("import" +:+ pretty (counter + Z.of_nat i)%Z).
Proof.
  revert counter h i.
  induction imports as [ | each rest IH]; intros counter h i Hnodup Hi Hl;
    [discriminate Hi | ].
  apply NoDup_cons in Hnodup as [Hfresh Hnodup].
  destruct i as [ | i]; cbn in Hi |- *.
  - injection Hi as ->. unfold unique_name_of.
    rewrite GetImports_loop_other by exact Hfresh.
    fold (unique_name_of (setitem l "unique_name" ("import" +:+ pretty counter) h) l).
    rewrite unique_name_of_setitem by exact Hl.
    rewrite Z.add_0_r. reflexivity.
  - rewrite (IH (counter + 1)%Z _ i Hnodup Hi).
    + do 3 f_equal. lia.
    + unfold setitem. rewrite lookup_alter_ne; [exact Hl | ].
      intros ->. apply Hfresh. eapply list_elem_of_lookup_2. exact Hi.
Qed.

(** Running the loop on a store in which every listed dictionary already
    has the alias of its position changes nothing. *)
Lemma GetImports_loop_assigned (counter : Z) (imports : list loc) (h : store) :
  (∀ i l, imports !! i = Some l →
     unique_name_of h l = Some ("import" +:+ pretty (counter + Z.of_nat i)%Z)) →
  GetImports_loop counter imports h = h.
Proof.
  revert counter h.
  induction imports as [ | each rest IH]; intros counter h Hassigned; cbn;
    [reflexivity | ].
  assert (setitem each "unique_name" ("import" +:+ pretty counter) h = h) as ->.
  { specialize (Hassigned 0%nat each eq_refl).
    rewrite Z.add_0_r in Hassigned.
    unfold unique_name_of in Hassigned. unfold setitem.
    apply alter_id. intros d Hd. rewrite Hd in Hassigned. cbn in Hassigned.
    apply insert_id. exact Hassigned. }
  apply IH. intros i l Hi.
  rewrite (Hassigned (S i) l Hi). do 3 f_equal. lia.
Qed.

Lemma alias_inj (i j : nat) :
  "import" +:+ pretty (1 + Z.of_nat i)%Z = "import" +:+ pretty (1 + Z.of_nat j)%Z →
  i = j.
Proof.
  intros Heq. apply (inj (String.app "import")) in Heq.
  apply (inj pretty) in Heq. lia.
Qed.

(** C7: when the imports of a module are distinct dictionaries of the
    store, [GetImports] gives the import at position [i], counted from 0,
    the alias [import] followed by the decimal [i + 1], whatever the
    dictionaries hold; the aliases of two positions differ; and a second
    run on the resulting store returns the same store, hence the same
    aliases. *)
Theorem GetImports_aliases (module : MojomModule.t) (h : store) :
  NoDup (MojomModule.imports module) →
  (∀ l, l ∈ MojomModule.imports module → is_Some (h !! l)) →
  (GetImports module h).2 = MojomModule.imports module
  ∧ (∀ i l, MojomModule.imports module !! i = Some l →
       unique_name_of (GetImports module h).1 l
       = Some ("import" +:+ pretty (1 + Z.of_nat i)%Z))
  ∧ (∀ i j li lj,
       MojomModule.imports module !! i = Some li →
       MojomModule.imports module !! j = Some lj →
       i ≠ j →
       unique_name_of (GetImports module h).1 li
       ≠ unique_name_of (GetImports module h).1 lj)
  ∧ GetImports module (GetImports module h).1 = GetImports module h.
Proof.
  intros Hnodup Halloc.
  assert (∀ i l, MojomModule.imports module !! i = Some l →
            unique_name_of (GetImports module h).1 l
            = Some ("import" +:+ pretty (1 + Z.of_nat i)%Z)) as Halias.
  { intros i l Hi. unfold GetImports. cbn.
    apply GetImports_loop_alias; [exact Hnodup | exact Hi | ].
    apply Halloc. eapply list_elem_of_lookup_2. exact Hi. }
  split_and!.
  - reflexivity.
  - exact Halias.
  - intros i j li lj Hi Hj Hne.
    rewrite (Halias i li Hi), (Halias j lj Hj).
    intros Heq. apply Hne, alias_inj. apply (inj Some). exact Heq.
  - unfold GetImports. cbn. f_equal.
    apply (GetImports_loop_assigned 1 (MojomModule.imports module)
             (GetImports_loop 1 (MojomModule.imports module) h)).
    exact Halias.
Qed.

Lemma sample_imports_allocated (l : loc) :
  l ∈ MojomModule.imports sample_module → is_Some (sample_store !! l).
Proof.
  cbn. rewrite !elem_of_cons, elem_of_nil.
  intros [-> | [-> | [-> | []]]];
    apply (bool_decide_unpack (is_Some _)); vm_compute; exact I.
Qed.

Lemma GetImports_aliases_witness :
  NoDup (MojomModule.imports sample_module)
  ∧ unique_name_of (GetImports sample_module sample_store).1 3%positive
    = Some "import3"
  ∧ GetImports sample_module (GetImports sample_module sample_store).1
    = GetImports sample_module sample_store.
Proof.
  assert (NoDup (MojomModule.imports sample_module)) as Hnodup.
  { apply (bool_decide_unpack (NoDup (MojomModule.imports sample_module))).
    vm_compute. exact I. }
  destruct (GetImports_aliases sample_module sample_store Hnodup
              sample_imports_allocated) as (_ & Halias & _ & Hagain).
  split_and!; [exact Hnodup | exact (Halias 2%nat 3%positive eq_refl) | exact Hagain].
Defined.

(** A dictionary that the list holds twice is written twice, and both
    positions then show the alias of the second: the aliases are those of
    the positions only because the imports are distinct objects. *)
Remark GetImports_shared_dictionary :
  unique_name_of
    (GetImports_loop 1 [1; 1]%positive sample_store) 1%positive
  = Some "import2".
Proof. vm_compute. reflexivity. Qed.

(** After [GetImports], a constant that comes from the import at position
    [i] is qualified with the alias of that position. *)
Lemma TranslateConstants_after_GetImports (module : MojomModule.t) (h : store)
    (c : Constant.t) (i : nat) (l : loc) :
  NoDup (MojomModule.imports module) →
  MojomModule.imports module !! i = Some l →
  is_Some (h !! l) →
  Constant.imported_from c = Some l →
  ∃ path,
    TranslateConstants (GetImports module h).1 (VConstant c) module
    = Ok (VStr ("import" +:+ pretty (1 + Z.of_nat i)%Z +:+ "." +:+ path)).
Proof.
  intros Hnodup Hi Hl Himp.
  rewrite (TranslateConstants_imported _ _ c l
             ("import" +:+ pretty (1 + Z.of_nat i)%Z) Himp).
  - cbn. eauto.
  - unfold GetImports. cbn. apply GetImports_loop_alias; assumption.
Qed.

(** ** The generation context and the artifact *)

Section GeneratorProperties.

Variable GetStructs : MojomModule.t → list kindval.
Variable GetStructsFromMethods : MojomModule.t → list kindval.
Variable render : string → context → store → result string.

Lemma GenerateJsModule_context_store (module : MojomModule.t) (h : store) :
  (GenerateJsModule_context GetStructs GetStructsFromMethods module h).1
  = (GetImports module h).1.
Proof. reflexivity. Qed.

(** C9: the context that goes to the renderer has the six keys [imports],
    [kinds], [enums], [module], [structs] and [interfaces], and no other.
    When the rendering succeeds, [GenerateFiles] writes one artifact, named
    after the module with the extension [.js], that holds the rendered
    text; when the rendering raises, so does [GenerateFiles]. *)
Theorem GenerateFiles_context_and_artifact (module : MojomModule.t) (h : store) :
  dom (GenerateJsModule_context GetStructs GetStructsFromMethods module h).2
  = ({[ "imports"; "kinds"; "enums"; "module"; "structs"; "interfaces" ]}
       : gset string)
  ∧ (∀ text written,
       render "js_templates/module.js.tmpl"
         (GenerateJsModule_context GetStructs GetStructsFromMethods module h).2
         (GetImports module h).1
       = Ok text →
       GenerateFiles GetStructs GetStructsFromMethods render module h written
       = Ok ((GetImports module h).1,
             written ++ [(MojomModule.name module +:+ ".js", text)]))
  ∧ (∀ e written,
       render "js_templates/module.js.tmpl"
         (GenerateJsModule_context GetStructs GetStructsFromMethods module h).2
         (GetImports module h).1
       = Raise e →
       GenerateFiles GetStructs GetStructsFromMethods render module h written
       = Raise e).
Proof.
  split_and!.
  - unfold GenerateJsModule_context. cbn.
    rewrite !dom_insert_L, dom_empty_L. set_solver.
  - intros text written Hrender.
    unfold GenerateFiles, GenerateJsModule. cbn in Hrender |- *.
    rewrite Hrender. reflexivity.
  - intros e written Hrender.
    unfold GenerateFiles, GenerateJsModule. cbn in Hrender |- *.
    rewrite Hrender. reflexivity.
Qed.

End GeneratorProperties.

Lemma GenerateFiles_context_and_artifact_witness :
  GenerateFiles (λ module, MojomModule.structs module) (λ _, [])
    (λ _ _ _, Ok "define([], function() {});") sample_module sample_store []
  = Ok ((GetImports sample_module sample_store).1,
        [("sample.js", "define([], function() {});")]).
Proof.
  destruct (GenerateFiles_context_and_artifact
              (λ module, MojomModule.structs module) (λ _, [])
              (λ _ _ _, Ok "define([], function() {});")
              sample_module sample_store) as (_ & Hwritten & _).
  apply (Hwritten "define([], function() {});" []). reflexivity.
Defined.

(** * Further properties of the filters *)

(** ** Descriptors and snippets *)

(** X1: for a recognised kind the decode and the encode snippet are built
    around one and the same descriptor, and with matching calls: the scalar
    pair around the descriptor the resolver gives for the kind, or the
    struct pointer pair, or the array pointer pair, around the descriptor
    that the resolver wraps in [PointerTo] or [ArrayOf] for the kind. *)
Theorem snippets_agree_with_codec (kind : kindval) :
  recognized kind = true →
  ∃ descriptor,
    (JavaScriptDecodeSnippet kind = PyStr ("decodeStruct(" +:+ descriptor +:+ ")")
     ∧ JavaScriptEncodeSnippet kind
       = PyStr ("encodeStruct(" +:+ descriptor +:+ ", ")
     ∧ CodecType kind = PyStr descriptor)
    ∨ (JavaScriptDecodeSnippet kind
       = PyStr ("decodeStructPointer(" +:+ descriptor +:+ ")")
       ∧ JavaScriptEncodeSnippet kind
         = PyStr ("encodeStructPointer(" +:+ descriptor +:+ ", ")
       ∧ CodecType kind = PyStr ("new codec.PointerTo(" +:+ descriptor +:+ ")"))
    ∨ (JavaScriptDecodeSnippet kind
       = PyStr ("decodeArrayPointer(" +:+ descriptor +:+ ")")
       ∧ JavaScriptEncodeSnippet kind
         = PyStr ("encodeArrayPointer(" +:+ descriptor +:+ ", ")
       ∧ CodecType kind = PyStr ("new codec.ArrayOf(" +:+ descriptor +:+ ")")).
Proof.
  intros Hkind. destruct kind as [p | name | k | name | name | | | ];
    try discriminate Hkind; simp_filters.
  - exists (_kind_to_codec_type p). left. split_and!; reflexivity.
  - exists name. right. left. split_and!; reflexivity.
  - exists (str (CodecType k)). right. right. split_and!; reflexivity.
  - exists "codec.Handle". left. split_and!; reflexivity.
  - exists "codec.Int32". left. split_and!; reflexivity.
Qed.

Lemma snippets_agree_with_codec_witness :
  recognized (Array (Struct "Point")) = true
  ∧ ∃ descriptor,
      (JavaScriptDecodeSnippet (Array (Struct "Point"))
       = PyStr ("decodeStruct(" +:+ descriptor +:+ ")")
       ∧ JavaScriptEncodeSnippet (Array (Struct "Point"))
         = PyStr ("encodeStruct(" +:+ descriptor +:+ ", ")
       ∧ CodecType (Array (Struct "Point")) = PyStr descriptor)
      ∨ (JavaScriptDecodeSnippet (Array (Struct "Point"))
         = PyStr ("decodeStructPointer(" +:+ descriptor +:+ ")")
         ∧ JavaScriptEncodeSnippet (Array (Struct "Point"))
           = PyStr ("encodeStructPointer(" +:+ descriptor +:+ ", ")
         ∧ CodecType (Array (Struct "Point"))
           = PyStr ("new codec.PointerTo(" +:+ descriptor +:+ ")"))
      ∨ (JavaScriptDecodeSnippet (Array (Struct "Point"))
         = PyStr ("decodeArrayPointer(" +:+ descriptor +:+ ")")
         ∧ JavaScriptEncodeSnippet (Array (Struct "Point"))
           = PyStr ("encodeArrayPointer(" +:+ descriptor +:+ ", ")
         ∧ CodecType (Array (Struct "Point"))
           = PyStr ("new codec.ArrayOf(" +:+ descriptor +:+ ")")).
Proof.
  split; [reflexivity | ].
  apply (snippets_agree_with_codec (Array (Struct "Point"))). reflexivity.
Defined.

(** X2: resolving twice is resolving once.  What the resolver returns, a
    descriptor or the value it could not recognise, is returned unchanged
    when it is passed to the resolver again; this is what makes the call
    [CodecType(kind.name)] on a name harmless. *)
Theorem CodecType_idempotent (kind : kindval) :
  CodecType (CodecType kind) = CodecType kind.
Proof. destruct kind; simp_filters; reflexivity. Qed.

(** X3: arrays nest.  For an array of arrays, [n + 1] levels deep, of any
    element, the descriptor is the text of the descriptor of the element
    wrapped [n + 1] times in [new codec.ArrayOf(...)], and the decode
    snippet is [decodeArrayPointer] around the [n]-fold wrapping. *)
Theorem CodecType_nested_arrays (n : nat) (kind : kindval) :
  CodecType (Nat.iter (S n) Array kind)
  = PyStr (Nat.iter (S n) (λ d, "new codec.ArrayOf(" +:+ d +:+ ")")
             (str (CodecType kind)))
  ∧ JavaScriptDecodeSnippet (Nat.iter (S n) Array kind)
    = PyStr ("decodeArrayPointer("
             +:+ Nat.iter n (λ d, "new codec.ArrayOf(" +:+ d +:+ ")")
                   (str (CodecType kind))
             +:+ ")").
Proof.
  assert (∀ m, CodecType (Nat.iter (S m) Array kind)
               = PyStr (Nat.iter (S m) (λ d, "new codec.ArrayOf(" +:+ d +:+ ")")
                          (str (CodecType kind)))) as Hcodec.
  { induction m as [ | m IH].
    - cbn. apply CodecType_array.
    - change (Nat.iter (S (S m)) Array kind)
        with (Array (Nat.iter (S m) Array kind)).
      rewrite CodecType_array, IH. reflexivity. }
  split; [apply Hcodec | ].
  change (Nat.iter (S n) Array kind) with (Array (Nat.iter n Array kind)).
  simp JavaScriptDecodeSnippet. destruct n as [ | n].
  - reflexivity.
  - rewrite Hcodec. reflexivity.
Qed.

(** X4: handles and invalid handles go together.  A recognised kind is
    encoded with [codec.Handle] exactly when the default value of a field
    of that kind is [core.kInvalidHandle]. *)
Theorem handle_codec_iff_invalid_handle_default (kind : kindval) :
  recognized kind = true →
  CodecType kind = PyStr "codec.Handle"
  ↔ JavaScriptDefaultValue {| Field.kind := kind; Field.default := VNone |}
    = Ok (PyStr "core.kInvalidHandle").
Proof.
  intros Hkind. unfold JavaScriptDefaultValue. cbn.
  destruct kind as [p | name | k | name | name | | | ];
    try discriminate Hkind; simp_filters.
  - destruct p; cbn; split; intros Heq; try discriminate Heq; reflexivity.
  - split; intros Heq; discriminate Heq.
  - split; intros Heq; discriminate Heq.
  - split; reflexivity.
  - split; intros Heq; discriminate Heq.
Qed.

Lemma handle_codec_iff_invalid_handle_default_witness :
  recognized (Interface "Painter") = true
  ∧ (CodecType (Interface "Painter") = PyStr "codec.Handle"
     ↔ JavaScriptDefaultValue
         {| Field.kind := Interface "Painter"; Field.default := VNone |}
       = Ok (PyStr "core.kInvalidHandle")).
Proof.
  split; [reflexivity | ].
  apply (handle_codec_iff_invalid_handle_default (Interface "Painter")).
  reflexivity.
Defined.

(** ** Payload size *)



(** X6: only the last field of the list counts.  The fields before it do
    not change the result, so a field that is listed earlier but ends 8 or
    more bytes after the last one ends beyond the payload size: the size is
    right only for a list in packing order. *)
Theorem JavaScriptPayloadSize_last_field_only
    (fields : list PackedField.t) (last_field : PackedField.t) :
  JavaScriptPayloadSize {| PackedStruct.packed_fields := fields ++ [last_field] |}
  = JavaScriptPayloadSize {| PackedStruct.packed_fields := [last_field] |}
  ∧ (∀ early,
       early ∈ fields →
       PackedField.offset last_field + PackedField.size last_field + 8
       ≤ PackedField.offset early + PackedField.size early →
       JavaScriptPayloadSize
         {| PackedStruct.packed_fields := fields ++ [last_field] |}
       < PackedField.offset early + PackedField.size early)%Z.
Proof.
  unfold JavaScriptPayloadSize. cbn. rewrite last_snoc.
  split; [reflexivity | ].
  intros early _ Hend.
  pose proof (GetPad_8 (PackedField.offset last_field
                        + PackedField.size last_field)) as [Hpad _].
  lia.
Qed.

Lemma JavaScriptPayloadSize_last_field_only_witness :
  (JavaScriptPayloadSize
     {| PackedStruct.packed_fields :=
          [{| PackedField.offset := 8; PackedField.size := 8 |};
           {| PackedField.offset := 0; PackedField.size := 1 |}] |}
   < 8 + 8)%Z.
Proof.
  destruct (JavaScriptPayloadSize_last_field_only
              [{| PackedField.offset := 8; PackedField.size := 8 |}]
              {| PackedField.offset := 0; PackedField.size := 1 |})
    as [_ Hearly].
  apply (Hearly {| PackedField.offset := 8; PackedField.size := 8 |}).
  - apply list_elem_of_singleton. reflexivity.
  - cbn. lia.
Defined.

(** ** What [GetImports] writes *)

Lemma GetImports_loop_dom (counter : Z) (imports : list loc) (h : store) :
  dom (GetImports_loop counter imports h) = dom h.
Proof.
  revert counter h.
  induction imports as [ | each rest IH]; intros counter h; cbn;
    [reflexivity | ].
  rewrite IH. unfold setitem. apply dom_alter_L.
Qed.

Lemma GetImports_loop_keys (counter : Z) (imports : list loc) (h : store)
    (l : loc) (d : gmap string string) (key : string) :
  h !! l = Some d →
  key ≠ "unique_name" →
  ∃ d', GetImports_loop counter imports h !! l = Some d'
        ∧ d' !! key = d !! key.
Proof.
  revert counter h d.
  induction imports as [ | each rest IH]; intros counter h d Hl Hkey; cbn;
    [eauto | ].
  destruct (decide (each = l)) as [-> | Hne].
  - destruct (IH (counter + 1)%Z
                (setitem l "unique_name" ("import" +:+ pretty counter) h)
                (<["unique_name" := "import" +:+ pretty counter]> d))
      as (d' & Hd' & Hsame); [ | exact Hkey | ].
    + unfold setitem. rewrite lookup_alter_eq, Hl. reflexivity.
    + exists d'. split; [exact Hd' | ].
      rewrite Hsame. apply lookup_insert_ne. congruence.
  - apply IH; [ | exact Hkey].
    unfold setitem. rewrite lookup_alter_ne by exact Hne. exact Hl.
Qed.

(** X7: [GetImports] writes the key [unique_name] of the listed imports and
    nothing else.  It neither adds a dictionary to the store nor removes
    one, it leaves the dictionaries that the module does not import as they
    are, and in every dictionary it leaves every other key as it is. *)
Theorem GetImports_frame (module : MojomModule.t) (h : store) :
  dom (GetImports module h).1 = dom h
  ∧ (∀ l, l ∉ MojomModule.imports module → (GetImports module h).1 !! l = h !! l)
  ∧ (∀ l d key,
       h !! l = Some d →
       key ≠ "unique_name" →
       ∃ d', (GetImports module h).1 !! l = Some d' ∧ d' !! key = d !! key).
Proof.
  unfold GetImports. cbn. split_and!.
  - apply GetImports_loop_dom.
  - intros l. apply GetImports_loop_other.
  - intros l d key. apply GetImports_loop_keys.
Qed.

Lemma GetImports_frame_witness :
  ∃ d', (GetImports sample_module sample_store).1 !! 2%positive = Some d'
        ∧ d' !! "module_name" = Some "color.mojom".
Proof.
  destruct (GetImports_frame sample_module sample_store) as (_ & _ & Hkeys).
  destruct (Hkeys 2%positive {[ "module_name" := "color.mojom" ]} "module_name")
    as (d' & Hd' & Hsame).
  - apply (bool_decide_unpack (_ = _)). vm_compute. exact I.
  - discriminate.
  - exists d'. split; [exact Hd' | ]. rewrite Hsame. vm_compute. reflexivity.
Defined.

Lemma GetImports_loop_last (counter : Z) (imports : list loc) (h : store)
    (i : nat) (l : loc) :
  imports !! i = Some l →
  l ∉ drop (S i) imports →
  is_Some (h !! l) →
  unique_name_of (GetImports_loop counter imports h) l
  = Some ("import" +:+ pretty (counter + Z.of_nat i)%Z).
Proof.
  revert counter h i.
  induction imports as [ | each rest IH]; intros counter h i Hi Hlast Hl;
    [discriminate Hi | ].
  destruct i as [ | i]; cbn in Hi, Hlast |- *.
  - injection Hi as ->. rewrite drop_0 in Hlast. unfold unique_name_of.
    rewrite GetImports_loop_other by exact Hlast.
    fold (unique_name_of (setitem l "unique_name" ("import" +:+ pretty counter) h) l).
    rewrite unique_name_of_setitem by exact Hl.
    rewrite Z.add_0_r. reflexivity.
  - rewrite (IH (counter + 1)%Z _ i Hi Hlast).
    + do 3 f_equal. lia.
    + unfold setitem. apply lookup_alter_is_Some. exact Hl.
Qed.

(** X8: the last position wins.  Whether or not the import list names a
    dictionary more than once, a dictionary ends up with the alias of the
    last position at which the list names it; the aliases of its earlier
    positions are overwritten. *)
Theorem GetImports_last_position_wins (module : MojomModule.t) (h : store)
    (i : nat) (l : loc) :
  MojomModule.imports module !! i = Some l →
  l ∉ drop (S i) (MojomModule.imports module) →
  is_Some (h !! l) →
  unique_name_of (GetImports module h).1 l
  = Some ("import" +:+ pretty (1 + Z.of_nat i)%Z).
Proof. unfold GetImports. cbn. apply GetImports_loop_last. Qed.

Lemma GetImports_last_position_wins_witness :
  MojomModule.imports sample_module_shared !! 0%nat = Some 1%positive
  ∧ unique_name_of (GetImports sample_module_shared sample_store).1 1%positive
    = Some "import3".
Proof.
  split; [reflexivity | ].
  apply (GetImports_last_position_wins sample_module_shared sample_store 2%nat).
  - reflexivity.
  - cbn. apply not_elem_of_nil.
  - apply (bool_decide_unpack (is_Some _)). vm_compute. exact I.
Defined.

(** ** Imports without an alias *)

Lemma dict_truthy_nonempty (h : store) (l : loc) (d : gmap string string) :
  h !! l = Some d → d ≠ ∅ → dict_truthy l h = true.
Proof.
  intros Hl Hd. unfold dict_truthy. rewrite Hl.
  apply negb_true_iff, bool_decide_eq_false. exact Hd.
Qed.

Lemma dict_truthy_empty (h : store) (l : loc) :
  h !! l = Some ∅ → dict_truthy l h = false.
Proof.
  intros Hl. unfold dict_truthy. rewrite Hl.
  apply negb_false_iff, bool_decide_eq_true. reflexivity.
Qed.

Lemma getitem_missing (h : store) (l : loc) (d : gmap string string)
    (key : string) :
  h !! l = Some d → d !! key = None → getitem l key h = Raise (KeyError key).
Proof. intros Hl Hd. unfold getitem. rewrite Hl. cbn. rewrite Hd. reflexivity. Qed.

(** X9: a constant from an import that has no alias yet.  When the
    dictionary of the import holds something but no [unique_name], as it
    does before [GetImports] has run, translating the constant raises
    [KeyError] for that key. *)
Theorem TranslateConstants_missing_alias (h : store) (module : MojomModule.t)
    (c : Constant.t) (l : loc) (d : gmap string string) :
  Constant.imported_from c = Some l →
  h !! l = Some d →
  d ≠ ∅ →
  d !! "unique_name" = None →
  TranslateConstants h (VConstant c) module = Raise (KeyError "unique_name").
Proof.
  intros Himp Hl Hd Hkey. unfold TranslateConstants.
  rewrite Himp, (dict_truthy_nonempty h l d Hl Hd),
    (getitem_missing h l d _ Hl Hkey).
  reflexivity.
Qed.

Lemma TranslateConstants_missing_alias_witness :
  sample_store !! 2%positive = Some {[ "module_name" := "color.mojom" ]}
  ∧ TranslateConstants sample_store (VConstant sample_constant) sample_module
    = Raise (KeyError "unique_name").
Proof.
  assert (sample_store !! 2%positive = Some {[ "module_name" := "color.mojom" ]})
    as Hl.
  { apply (bool_decide_unpack (_ = _)). vm_compute. exact I. }
  split; [exact Hl | ].
  apply (TranslateConstants_missing_alias sample_store sample_module
           sample_constant 2%positive {[ "module_name" := "color.mojom" ]}).
  - reflexivity.
  - exact Hl.
  - apply (bool_decide_unpack (_ ≠ _)). vm_compute. exact I.
  - apply (bool_decide_unpack (_ = _)). vm_compute. exact I.
Defined.

(** X10: a constant from an import whose dictionary is empty.  The empty
    dictionary is not truthy, so the constant is translated as if it were
    not imported at all: no alias, and no error either. *)
Theorem TranslateConstants_empty_import (h : store) (module : MojomModule.t)
    (c : Constant.t) (l : loc) :
  Constant.imported_from c = Some l →
  h !! l = Some ∅ →
  TranslateConstants h (VConstant c) module
  = TranslateConstants h
      (VConstant {| Constant.name := Constant.name c;
                    Constant.parent_kind := Constant.parent_kind c;
                    Constant.imported_from := None |}) module.
Proof.
  intros Himp Hl. unfold TranslateConstants. cbn.
  rewrite Himp, (dict_truthy_empty h l Hl). reflexivity.
Qed.

Lemma TranslateConstants_empty_import_witness :
  sample_store !! 3%positive = Some ∅
  ∧ TranslateConstants sample_store
      (VConstant {| Constant.name := ("Color", "RED");
                    Constant.parent_kind := None;
                    Constant.imported_from := Some 3%positive |}) sample_module
    = Ok (VStr "Color.RED").
Proof.
  assert (sample_store !! 3%positive = Some ∅) as Hl.
  { apply (bool_decide_unpack (_ = _)). vm_compute. exact I. }
  split; [exact Hl | ].
  rewrite (TranslateConstants_empty_import sample_store sample_module
             {| Constant.name := ("Color", "RED");
                Constant.parent_kind := None;
                Constant.imported_from := Some 3%positive |} 3%positive
             eq_refl Hl).
  reflexivity.
Defined.

(** X11: [GetImports], then [TranslateConstants].  Once [GetImports] has
    run on a module whose imports are distinct dictionaries, a constant that
    comes from the import at position [i], counted from 0, is translated to
    [import] and the decimal [i + 1], a dot, the scoped name of the enum, a
    dot, and the member; it never raises. *)
Theorem TranslateConstants_after_GetImports_path (module : MojomModule.t)
    (h : store) (c : Constant.t) (i : nat) (l : loc) :
  NoDup (MojomModule.imports module) →
  MojomModule.imports module !! i = Some l →
  is_Some (h !! l) →
  Constant.imported_from c = Some l →
  TranslateConstants (GetImports module h).1 (VConstant c) module
  = Ok (VStr ("import" +:+ pretty (1 + Z.of_nat i)%Z +:+ "."
              +:+ match Constant.parent_kind c with
                  | Some parent_kind =>
                      Kind.name parent_kind +:+ "_" +:+ (Constant.name c).1
                  | None => (Constant.name c).1
                  end
              +:+ "." +:+ (Constant.name c).2)).
Proof.
  intros Hnodup Hi Hl Himp.
  rewrite (TranslateConstants_imported _ _ c l
             ("import" +:+ pretty (1 + Z.of_nat i)%Z) Himp).
  - reflexivity.
  - unfold GetImports. cbn. apply GetImports_loop_alias; assumption.
Qed.

Lemma TranslateConstants_after_GetImports_path_witness :
  TranslateConstants (GetImports sample_module sample_store).1
    (VConstant sample_constant) sample_module
  = Ok (VStr "import2.Shape_Color.RED").
Proof.
  apply (TranslateConstants_after_GetImports_path sample_module sample_store
           sample_constant 1%nat 2%positive).
  - apply (bool_decide_unpack (NoDup _)). vm_compute. exact I.
  - reflexivity.
  - apply (bool_decide_unpack (is_Some _)). vm_compute. exact I.
  - reflexivity.
Defined.

(** ** How [ExpressionToText] fails *)

(** X12: the diagnostic of [ExpressionToText].  The message is built by
    adding the value to a string, so the [Exception] with its message is
    raised for a string only, and every string that is not empty gets it; a
    tuple or a list whose first item is not the tag raises [TypeError]
    instead.  A value without a first item raises [IndexError], and a value
    that cannot be indexed raises [TypeError]. *)
Theorem ExpressionToText_diagnostics (h : store) (module : MojomModule.t) :
  (∀ tag items,
     ne_str tag "EXPRESSION" = true →
     ExpressionToText h (VTuple (tag :: items)) module = Raise TypeError
     ∧ ExpressionToText h (VList (tag :: items)) module = Raise TypeError)
  ∧ (∀ c s,
       ExpressionToText h (VStr (String c s)) module
       = Raise (Exception ("Expected EXPRESSION, got" +:+ String c s)))
  ∧ ExpressionToText h (VTuple []) module = Raise IndexError
  ∧ ExpressionToText h (VList []) module = Raise IndexError
  ∧ ExpressionToText h (VStr EmptyString) module = Raise IndexError
  ∧ ExpressionToText h VNone module = Raise TypeError
  ∧ (∀ b, ExpressionToText h (VBool b) module = Raise TypeError)
  ∧ (∀ n, ExpressionToText h (VInt n) module = Raise TypeError)
  ∧ (∀ c, ExpressionToText h (VConstant c) module = Raise TypeError).
Proof.
  split_and!; try reflexivity.
  - intros tag items Htag. unfold ExpressionToText. cbn.
    rewrite Htag. split; reflexivity.
  - intros c s. unfold ExpressionToText. cbn.
    destruct (Ascii.eqb c "E"); reflexivity.
Qed.

Lemma ExpressionToText_diagnostics_witness :
  ne_str (VStr "STATEMENT") "EXPRESSION" = true
  ∧ ExpressionToText sample_store
      (VTuple [VStr "STATEMENT"; VList [VStr "1"]]) sample_module
    = Raise TypeError.
Proof.
  split; [reflexivity | ].
  destruct (ExpressionToText_diagnostics sample_store sample_module)
    as (Htag & _).
  apply (Htag (VStr "STATEMENT") [VList [VStr "1"]]). reflexivity.
Defined.

(** ** The type filter *)

Lemma string_app_assoc (s1 s2 s3 : string) :
  (s1 +:+ s2) +:+ s3 = s1 +:+ (s2 +:+ s3).
Proof.
  induction s1 as [ | a s1 IH]; [reflexivity | ].
  change (String a ((s1 +:+ s2) +:+ s3) = String a (s1 +:+ (s2 +:+ s3))).
  rewrite IH. reflexivity.
Qed.

(** X13: [GetImports], then [JavascriptType].  Once [GetImports] has run on
    a module whose imports are distinct dictionaries, the type of a kind
    declared by the import at position [i], counted from 0, is [import] and
    the decimal [i + 1], a dot, and the name of the kind; a kind that is not
    imported keeps its bare name, in any store. *)
Theorem JavascriptType_after_GetImports (module : MojomModule.t) (h : store) :
  (∀ kind i l,
     NoDup (MojomModule.imports module) →
     MojomModule.imports module !! i = Some l →
     is_Some (h !! l) →
     UserKind.imported_from kind = Some l →
     JavascriptType (GetImports module h).1 kind
     = Ok ("import" +:+ pretty (1 + Z.of_nat i)%Z +:+ "." +:+ UserKind.name kind))
  ∧ (∀ kind,
       UserKind.imported_from kind = None →
       JavascriptType (GetImports module h).1 kind = Ok (UserKind.name kind)).
Proof.
  split.
  - intros kind i l Hnodup Hi Hl Himp.
    assert (unique_name_of (GetImports module h).1 l
            = Some ("import" +:+ pretty (1 + Z.of_nat i)%Z)) as Halias.
    { unfold GetImports. cbn. apply GetImports_loop_alias; assumption. }
    apply unique_name_of_Some in Halias as [Htrue Hget].
    unfold JavascriptType. rewrite Himp, Htrue, Hget. cbn.
    rewrite string_app_assoc. reflexivity.
  - intros kind Himp. unfold JavascriptType. rewrite Himp. reflexivity.
Qed.

Lemma JavascriptType_after_GetImports_witness :
  JavascriptType (GetImports sample_module sample_store).1 sample_kind
  = Ok "import2.Shape".
Proof.
  destruct (JavascriptType_after_GetImports sample_module sample_store)
    as [Himported _].
  apply (Himported sample_kind 1%nat 2%positive).
  - apply (bool_decide_unpack (NoDup _)). vm_compute. exact I.
  - reflexivity.
  - apply (bool_decide_unpack (is_Some _)). vm_compute. exact I.
  - reflexivity.
Defined.

(** X14: a constant is qualified like its owner.  Whenever the type filter
    gives a text for a kind, a constant of an enum owned by that kind and
    coming from the same import (or from none, like the kind) is translated
    to that text followed by an underscore, the name of the enum, a dot and
    the member.  The two filters read the same alias, or both leave it
    out. *)
Theorem TranslateConstants_extends_JavascriptType (h : store)
    (module : MojomModule.t) (kind : UserKind.t) (c : Constant.t)
    (text : string) :
  JavascriptType h kind = Ok text →
  Constant.imported_from c = UserKind.imported_from kind →
  Constant.parent_kind c = Some {| Kind.name := UserKind.name kind |} →
  TranslateConstants h (VConstant c) module
  = Ok (VStr (text +:+ "_" +:+ (Constant.name c).1 +:+ "." +:+ (Constant.name c).2)).
Proof.
  intros Htype Himp Hparent.
  unfold JavascriptType in Htype. unfold TranslateConstants.
  rewrite Himp, Hparent.
  destruct (UserKind.imported_from kind) as [l | ].
  - destruct (dict_truthy l h).
    + destruct (getitem l "unique_name" h) as [alias | e];
        [ | discriminate Htype].
      cbn in Htype |- *. injection Htype as <-.
      rewrite !string_app_assoc. reflexivity.
    + injection Htype as <-. cbn. rewrite !string_app_assoc. reflexivity.
  - injection Htype as <-. cbn. rewrite !string_app_assoc. reflexivity.
Qed.

Lemma TranslateConstants_extends_JavascriptType_witness :
  JavascriptType (GetImports sample_module sample_store).1 sample_kind
  = Ok "import2.Shape"
  ∧ TranslateConstants (GetImports sample_module sample_store).1
      (VConstant sample_constant) sample_module
    = Ok (VStr "import2.Shape_Color.RED").
Proof.
  assert (JavascriptType (GetImports sample_module sample_store).1 sample_kind
          = Ok "import2.Shape") as Htype.
  { vm_compute. reflexivity. }
  split; [exact Htype | ].
  apply (TranslateConstants_extends_JavascriptType
           (GetImports sample_module sample_store).1 sample_module
           sample_kind sample_constant "import2.Shape" Htype);
    reflexivity.
Defined.
